(** * winsond [convert.py]: radiosonde log to GeoJSON / windsond profile

    A shallow embedding of [src/convert.py].  Python floats are modelled
    as real numbers: rounding, infinities, NaN and signed zeros are outside
    the model.  Every operation of the source that raises on Python floats
    ([/] by zero, [math.log], [math.sqrt], [math.asin] outside their
    domain) returns an error in the model. *)

From Stdlib Require Import Reals Lra List ZArith Lia String.
Import ListNotations.

Open Scope R_scope.

(** ** Exceptions and the error monad *)

Inductive exn : Type :=
| ZeroDivisionError
| ValueError.

Inductive result (A : Type) : Type :=
| Ok (a : A)
| Err (e : exn).

Arguments Ok {A} a.
Arguments Err {A} e.

Definition bind {A B : Type} (m : result A) (k : A -> result B) : result B :=
  match m with
  | Ok a => k a
  | Err e => Err e
  end.

Notation "x <- m ;; k" := (bind m (fun x => k))
  (at level 61, m at next level, right associativity).

(** ** Python numerics over the reals *)

Module Py.

(** [if x:] on a number: true unless the number is zero. *)
Definition truthy (x : R) : bool :=
  if Req_dec_T x 0 then false else true.

(** [x / y] on floats. *)
Definition div (x y : R) : result R :=
  if Req_dec_T y 0 then Err ZeroDivisionError else Ok (x / y).

(** [x % y] on floats: the result has the sign of [y].  The source only
    takes it with the literal divisor 360. *)
Definition mod_ (x y : R) : R := x - y * IZR (Int_part (x / y)).

(** [math.radians], [math.degrees]. *)
Definition radians (x : R) : R := x * (PI / 180).
Definition degrees (x : R) : R := x * (180 / PI).

(** [math.log]. *)
Definition log (x : R) : result R :=
  if Rlt_dec 0 x then Ok (ln x) else Err ValueError.

(** [math.sqrt]. *)
Definition sqrt (x : R) : result R :=
  if Rle_dec 0 x then Ok (R_sqrt.sqrt x) else Err ValueError.

(** [math.asin]. *)
Definition asin (x : R) : result R :=
  if Rle_dec (-1) x then
    if Rle_dec x 1 then Ok (Ratan.asin x) else Err ValueError
  else Err ValueError.

(** [math.atan2(y, x)]: the angle of the point [(x, y)] in (-pi, pi],
    with [atan2(0, 0) = 0]. *)
Definition atan2 (y x : R) : R :=
  if Rlt_dec 0 x then atan (y / x)
  else if Rlt_dec x 0 then
    if Rle_dec 0 y then atan (y / x) + PI else atan (y / x) - PI
  else if Rlt_dec 0 y then PI / 2
  else if Rlt_dec y 0 then - (PI / 2)
  else 0.

End Py.

(** ** The formulas *)

(** [calculate_dew_point(pressure, temperature, relative_humidity)] *)
Definition calculate_dew_point (pressure temperature relative_humidity : R)
  : result R :=
  let A := 17.625 in
  let B := 243.04 in
  q <- Py.div (A * temperature) (B + temperature) ;;
  let es := 6.112 * exp q in
  let e := es * (relative_humidity / 100.0) in
  l1 <- Py.log (e / 6.112) ;;
  l2 <- Py.log (e / 6.112) ;;
  Py.div (B * l1) (A - l2).

(** [compute_bearing(lat1, lon1, lat2, lon2)] *)
Definition compute_bearing (lat1 lon1 lat2 lon2 : R) : R :=
  let lat1 := Py.radians lat1 in
  let lon1 := Py.radians lon1 in
  let lat2 := Py.radians lat2 in
  let lon2 := Py.radians lon2 in
  let y := sin (lon2 - lon1) * cos lat2 in
  let x := cos lat1 * sin lat2 - sin lat1 * cos lat2 * cos (lon2 - lon1) in
  let initial_bearing := Py.atan2 y x in
  let initial_bearing := Py.degrees initial_bearing in
  Py.mod_ (initial_bearing + 360) 360.

(** [haversine(lat1, lon1, lat2, lon2)] *)
Definition haversine (lat1 lon1 lat2 lon2 : R) : result R :=
  let lat1 := Py.radians lat1 in
  let lon1 := Py.radians lon1 in
  let lat2 := Py.radians lat2 in
  let lon2 := Py.radians lon2 in
  let dlat := lat2 - lat1 in
  let dlon := lon2 - lon1 in
  let a := sin (dlat / 2) ^ 2 + cos lat1 * cos lat2 * sin (dlon / 2) ^ 2 in
  s <- Py.sqrt a ;;
  h <- Py.asin s ;;
  let c := 2 * h in
  let r := 6371000 in
  Ok (c * r).

(** The value [haversine] returns when nothing raises. *)
Definition great_circle (lat1 lon1 lat2 lon2 : R) : R :=
  2 * Ratan.asin
        (R_sqrt.sqrt
           (sin ((Py.radians lat2 - Py.radians lat1) / 2) ^ 2
            + cos (Py.radians lat1) * cos (Py.radians lat2)
              * sin ((Py.radians lon2 - Py.radians lon1) / 2) ^ 2))
  * 6371000.

(** The value [calculate_dew_point] returns when nothing raises. *)
Definition dew_point_value (temperature relative_humidity : R) : R :=
  let l := ln (6.112 * exp (17.625 * temperature / (243.04 + temperature))
               * (relative_humidity / 100.0) / 6.112) in
  243.04 * l / (17.625 - l).

(** ** Data model *)

(** One record yielded by [df.iterrows()]; fields are named after the
    columns ['Time'], ['Lat/PosX'], ['Long/PosY'], ['Alt/PosZ'], ['Baro'],
    ['AirT'], ['RH']. *)
Record Row : Type := mkRow {
  Time : R;
  Lat_PosX : R;
  Long_PosY : R;
  Alt_PosZ : R;
  Baro : R;
  AirT : R;
  RH : R
}.

(** The local variables of [dataframe_to_geojson] that live across
    iterations of the loop. *)
Record State : Type := mkState {
  lasttime : R;
  lastlat : R;
  lastlon : R;
  distance : R;
  bearing : R;
  speed : R;
  dew_point : R
}.

(** A [Feature]: the [Point] geometry followed by the properties
    dictionary, one field per key. *)
Record Feature : Type := mkFeature {
  geometry : R * R * R;
  p_pressure : R;
  p_hum : R;
  p_temp : R;
  p_dew_point : R;
  p_dT : R;
  p_distance : R;
  p_bearing : R;
  p_speed : R
}.

(** A line written to [ws].  A data line is kept as the six numbers the
    f-string formats (altitude, pressure, temperature, dew point, bearing,
    speed), before their rendering to one decimal. *)
Inductive WsLine : Type :=
| Header
| Data (alt baro airT dew_point bearing speed : R).

(** What a run leaves behind: the lines written to [ws], the feature
    collection dumped to [gj] (only when the loop ran to its end), and the
    exception that ended the run, if any. *)
Record Outcome : Type := mkOutcome {
  ws_written : list WsLine;
  gj_written : option (list Feature);
  raised : option exn
}.

(** ** The conversion loop *)

(** The state before the first row. *)
Definition init_state : State :=
  mkState 0 99 1000 0 0 0 0.

(** [delta], lines 90 to 93. *)
Definition row_delta (st : State) (row : Row) : R :=
  let ts := Time row in
  if Py.truthy (lasttime st) then ts - lasttime st else 0.

(** The derived quantities [(distance, bearing, speed, dew_point)] after
    lines 95 to 99. *)
Definition derive (st : State) (row : Row) (delta : R)
  : result (R * R * R * R) :=
  if Rlt_dec (lastlat st) 90 then
    distance <- haversine (Lat_PosX row) (Long_PosY row) (lastlat st) (lastlon st) ;;
    let bearing :=
      compute_bearing (Lat_PosX row) (Long_PosY row) (lastlat st) (lastlon st) in
    speed <- Py.div (distance * 1000) delta ;;
    dew_point <- calculate_dew_point (Baro row) (AirT row) (RH row) ;;
    Ok (distance, bearing, speed, dew_point)
  else Ok (distance st, bearing st, speed st, dew_point st).

(** One iteration of the loop body: the new state and, when the row is
    emitted, its feature and its line. *)
Definition process_row (st : State) (row : Row)
  : result (State * option (Feature * WsLine)) :=
  if Rgt_dec (Lat_PosX row) 90 then Ok (st, None)
  else
    let ts := Time row in
    let delta := row_delta st row in
    d <- derive st row delta ;;
    let '(distance, bearing, speed, dew_point) := d in
    let st' :=
      mkState ts (Lat_PosX row) (Long_PosY row)
              distance bearing speed dew_point in
    let feature :=
      mkFeature (Long_PosY row, Lat_PosX row, Alt_PosZ row)
                (Baro row) (RH row) (AirT row)
                dew_point delta distance bearing speed in
    if Py.truthy delta then
      Ok (st', Some (feature,
                     Data (Alt_PosZ row) (Baro row) (AirT row)
                          dew_point bearing speed))
    else Ok (st', None).

(** The [for] loop, with the lines written so far and the feature list. *)
Fixpoint loop (st : State) (rows : list Row)
         (ws : list WsLine) (features : list Feature) : Outcome :=
  match rows with
  | [] => mkOutcome ws (Some features) None
  | row :: rest =>
      match process_row st row with
      | Err e => mkOutcome ws None (Some e)
      | Ok (st', None) => loop st' rest ws features
      | Ok (st', Some (feature, line)) =>
          loop st' rest (ws ++ [line]) (features ++ [feature])
      end
  end.

(** [dataframe_to_geojson(df, ws, gj)] *)
Definition dataframe_to_geojson (df : list Row) : Outcome :=
  loop init_state df [Header] [].

(** ** Output file names *)

(** [replace_extension(filename, new_extension)].  [os.path.splitext]
    belongs to the Python library and is taken as a parameter. *)
Definition replace_extension (splitext : string -> string * string)
           (filename new_extension : string) : string :=
  let (name, ext) := splitext filename in
  (name ++ "." ++ new_extension)%string.

(** ** Vocabulary for statements about a run *)

(** The test of line 87, as a boolean: the row is processed. *)
Definition processed (row : Row) : bool :=
  if Rgt_dec (Lat_PosX row) 90 then false else true.

(** The [Point] coordinates built from a row at line 103. *)
Definition position (row : Row) : R * R * R :=
  (Long_PosY row, Lat_PosX row, Alt_PosZ row).

(** The line written at line 117 next to a feature. *)
Definition line_of (f : Feature) : WsLine :=
  Data (snd (geometry f)) (p_pressure f) (p_temp f)
       (p_dew_point f) (p_bearing f) (p_speed f).

(** [Subseq xs ys]: [xs] is [ys] with some elements left out, in the same
    order. *)
Inductive Subseq {A : Type} : list A -> list A -> Prop :=
| Subseq_nil : Subseq [] []
| Subseq_keep (x : A) (xs ys : list A) :
    Subseq xs ys -> Subseq (x :: xs) (x :: ys)
| Subseq_drop (y : A) (xs ys : list A) :
    Subseq xs ys -> Subseq xs (y :: ys).

(** What a feature takes unchanged from the row it is built from. *)
Definition built_from (f : Feature) (row : Row) : Prop :=
  geometry f = position row /\ p_pressure f = Baro row
  /\ p_hum f = RH row /\ p_temp f = AirT row.

(** Rows that follow a row of timestamp [t] and each find a usable
    predecessor: the stored timestamp is not 0, the row is processed, its
    timestamp differs from the stored one, and its temperature and
    humidity are in the domain of the dew point. *)
Fixpoint regular_after (t : R) (rows : list Row) : Prop :=
  match rows with
  | [] => True
  | row :: rest =>
      t <> 0 /\ Time row <> t /\ Lat_PosX row <= 90
      /\ 0 < 243.04 + AirT row /\ 0 < RH row <= 100
      /\ regular_after (Time row) rest
  end.

(** ** Sample inputs *)

Module Sample.

(** The two rows of the end-to-end example: the log starts at time 0. *)
Definition start_row : Row := mkRow 0 10 20 100 1000 20 50.
Definition second_row : Row := mkRow 10 10.001 20.001 110 999 19 55.

(** A log whose last two rows carry the same timestamp. *)
Definition row_t1 : Row := mkRow 1 10 20 100 1000 20 50.
Definition row_t5 : Row := mkRow 5 10.001 20.001 110 999 19 55.
Definition row_t5_again : Row := mkRow 5 10.002 20.002 120 998 18 60.

(** A later row, to follow [row_t1] and [row_t5]. *)
Definition row_t9 : Row := mkRow 9 10.002 20.002 120 998 18 60.

(** A footer row. *)
Definition footer_row : Row := mkRow 6 91 20 100 1000 20 50.

(** Two rows on the equator, a quarter turn apart. *)
Definition equator_west : Row := mkRow 1 0 0 100 1000 20 50.
Definition equator_east : Row := mkRow 2 0 90 110 999 19 55.

Definition dry_2 : Row := mkRow 2 10.001 20.001 110 999 19 0.

(** A first row at exactly 90 degrees. *)
Definition pole_row : Row := mkRow 1 90 20 100 1000 20 50.

(** A state whose stored latitude is exactly 90. *)
Definition pole_state : State := mkState 5 90 20 1 2 3 4.

End Sample.

(** ** Facts about the numeric primitives *)

(** Decimal literals are rationals injected into the reals; [field] needs
    them as quotients of integers. *)
Ltac decimals :=
  unfold Q2R in *; cbn [QArith_base.Qnum QArith_base.Qden] in *.

Section Numerics.

Lemma truthy_zero : Py.truthy 0 = false.
Proof.
  unfold Py.truthy. destruct (Req_dec_T 0 0) as [_ | H]; [reflexivity | lra].
Qed.

Lemma truthy_nonzero (x : R) : x <> 0 -> Py.truthy x = true.
Proof.
  intros Hx. unfold Py.truthy.
  destruct (Req_dec_T x 0) as [H | _]; [contradiction | reflexivity].
Qed.

Lemma div_zero (x : R) : Py.div x 0 = Err ZeroDivisionError.
Proof.
  unfold Py.div. destruct (Req_dec_T 0 0) as [_ | H]; [reflexivity | lra].
Qed.

Lemma div_nonzero (x y : R) : y <> 0 -> Py.div x y = Ok (x / y).
Proof.
  intros Hy. unfold Py.div.
  destruct (Req_dec_T y 0) as [H | _]; [contradiction | reflexivity].
Qed.

Lemma log_pos (x : R) : 0 < x -> Py.log x = Ok (ln x).
Proof.
  intros Hx. unfold Py.log.
  destruct (Rlt_dec 0 x) as [_ | H]; [reflexivity | contradiction].
Qed.


Lemma sqrt_nonneg (x : R) : 0 <= x -> Py.sqrt x = Ok (R_sqrt.sqrt x).
Proof.
  intros Hx. unfold Py.sqrt.
  destruct (Rle_dec 0 x) as [_ | H]; [reflexivity | contradiction].
Qed.

Lemma asin_in_range (x : R) : -1 <= x <= 1 -> Py.asin x = Ok (Ratan.asin x).
Proof.
  intros [H1 H2]. unfold Py.asin.
  destruct (Rle_dec (-1) x) as [_ | H]; [ | contradiction].
  destruct (Rle_dec x 1) as [_ | H]; [reflexivity | contradiction].
Qed.

(** The integer part is pinned down by its two bounds. *)
Lemma Int_part_unique (r : R) (n : Z) :
  IZR n <= r -> r < IZR n + 1 -> Int_part r = n.
Proof.
  intros Hlo Hhi.
  destruct (base_Int_part r) as [H1 H2].
  assert (Hlt1 : IZR (Int_part r) < IZR (n + 1)) by (rewrite plus_IZR; lra).
  assert (Hlt2 : IZR n < IZR (Int_part r + 1)) by (rewrite plus_IZR; lra).
  apply lt_IZR in Hlt1. apply lt_IZR in Hlt2. lia.
Qed.

(** With a positive divisor [%] lands in [[0, y)]. *)
Lemma mod_bound (x y : R) : 0 < y -> 0 <= Py.mod_ x y < y.
Proof.
  intros Hy. unfold Py.mod_.
  destruct (base_Int_part (x / y)) as [H1 H2].
  set (n := IZR (Int_part (x / y))) in *.
  assert (Hx : x = x / y * y) by (field; lra).
  assert (Hlo : n * y <= x / y * y) by (apply Rmult_le_compat_r; lra).
  assert (Hhi : x / y * y < (n + 1) * y) by (apply Rmult_lt_compat_r; lra).
  split; lra.
Qed.

Lemma mod_self (y : R) : 0 < y -> Py.mod_ y y = 0.
Proof.
  intros Hy. unfold Py.mod_.
  replace (y / y) with 1 by (field; lra).
  rewrite (Int_part_unique 1 1) by lra. lra.
Qed.

Lemma atan2_origin : Py.atan2 0 0 = 0.
Proof.
  unfold Py.atan2.
  destruct (Rlt_dec 0 0) as [H | _]; [lra | reflexivity].
Qed.

Lemma atan2_pos_y_axis (y : R) : 0 < y -> Py.atan2 y 0 = PI / 2.
Proof.
  intros Hy. unfold Py.atan2.
  destruct (Rlt_dec 0 0) as [H | _]; [lra | ].
  destruct (Rlt_dec 0 y) as [_ | H]; [reflexivity | contradiction].
Qed.

Lemma atan2_neg_y_axis (y : R) : y < 0 -> Py.atan2 y 0 = - (PI / 2).
Proof.
  intros Hy. unfold Py.atan2.
  destruct (Rlt_dec 0 0) as [H | _]; [lra | ].
  destruct (Rlt_dec 0 y) as [H | _]; [lra | ].
  destruct (Rlt_dec y 0) as [_ | H]; [reflexivity | contradiction].
Qed.

(** [math.atan2] stays in (-pi, pi]. *)
Lemma atan2_bound (y x : R) : - PI < Py.atan2 y x <= PI.
Proof.
  pose proof PI_RGT_0 as Hpi.
  pose proof (atan_bound (y / x)) as [Hlo Hhi].
  unfold Py.atan2.
  destruct (Rlt_dec 0 x) as [Hx | Hx]; [lra | ].
  destruct (Rlt_dec x 0) as [Hx' | Hx'].
  - destruct (Rle_dec 0 y) as [Hy | Hy].
    + assert (Hq : y / x <= 0).
      { pose proof (Rinv_lt_0_compat x Hx') as Hinv.
        unfold Rdiv. nra. }
      assert (atan (y / x) <= 0).
      { destruct Hq as [Hq | Hq].
        - left. rewrite <- atan_0. apply atan_increasing. exact Hq.
        - rewrite Hq, atan_0. lra. }
      lra.
    + assert (Hq : 0 < y / x).
      { replace (y / x) with ((- y) * / (- x)) by (field; lra).
        apply Rmult_lt_0_compat; [lra | apply Rinv_0_lt_compat; lra]. }
      assert (0 < atan (y / x)).
      { rewrite <- atan_0. apply atan_increasing. exact Hq. }
      lra.
  - destruct (Rlt_dec 0 y); [lra | ].
    destruct (Rlt_dec y 0); lra.
Qed.

End Numerics.

(** ** Facts about the formulas *)

Section Formulas.

Lemma sin_half_sq (x : R) : sin (x / 2) ^ 2 = (1 - cos x) / 2.
Proof.
  pose proof (cos_2a_sin (x / 2)) as H.
  replace (2 * (x / 2)) with x in H by field.
  rewrite H. field.
Qed.

(** The mixed product of two unit vectors' coordinates, scaled by a
    cosine, stays within [[-1, 1]]. *)
Lemma unit_dot_bound (c1 s1 c2 s2 k : R) :
  s1 * s1 + c1 * c1 = 1 -> s2 * s2 + c2 * c2 = 1 -> -1 <= k <= 1 ->
  -1 <= s1 * s2 + k * (c1 * c2) <= 1.
Proof.
  intros H1 H2 [Hk1 Hk2].
  assert (Ha : -1 <= s1 * s2 + c1 * c2 <= 1).
  { pose proof (Rle_0_sqr (s1 - s2)). pose proof (Rle_0_sqr (c1 - c2)).
    pose proof (Rle_0_sqr (s1 + s2)). pose proof (Rle_0_sqr (c1 + c2)).
    unfold Rsqr in *. lra. }
  assert (Hb : -1 <= s1 * s2 - c1 * c2 <= 1).
  { pose proof (Rle_0_sqr (s1 - s2)). pose proof (Rle_0_sqr (c1 + c2)).
    pose proof (Rle_0_sqr (s1 + s2)). pose proof (Rle_0_sqr (c1 - c2)).
    unfold Rsqr in *. lra. }
  set (p := s1 * s2) in *. set (q := c1 * c2) in *.
  split; nra.
Qed.

(** The haversine term [a] of the source is a number of [[0, 1]] for all
    arguments, so neither [math.sqrt] nor [math.asin] can raise. *)
Lemma haversine_term_bound (lat1 lat2 dlon : R) :
  0 <= sin ((lat2 - lat1) / 2) ^ 2
       + cos lat1 * cos lat2 * sin (dlon / 2) ^ 2 <= 1.
Proof.
  rewrite !sin_half_sq, cos_minus.
  pose proof (sin2_cos2 lat1) as H1. pose proof (sin2_cos2 lat2) as H2.
  unfold Rsqr in H1, H2.
  pose proof (COS_bound dlon) as Hk.
  pose proof (unit_dot_bound (cos lat1) (sin lat1) (cos lat2) (sin lat2)
                             (cos dlon) H1 H2 Hk) as [Hlo Hhi].
  split; lra.
Qed.

Lemma sqrt_unit_bound (a : R) : 0 <= a <= 1 -> -1 <= R_sqrt.sqrt a <= 1.
Proof.
  intros [H0 H1]. split.
  - pose proof (sqrt_pos a). lra.
  - rewrite <- sqrt_1. apply sqrt_le_1_alt. exact H1.
Qed.

(** [haversine] never raises. *)
Lemma haversine_total (lat1 lon1 lat2 lon2 : R) :
  haversine lat1 lon1 lat2 lon2 = Ok (great_circle lat1 lon1 lat2 lon2).
Proof.
  unfold haversine, great_circle.
  pose proof (haversine_term_bound (Py.radians lat1) (Py.radians lat2)
                (Py.radians lon2 - Py.radians lon1)) as Ha.
  rewrite sqrt_nonneg by apply Ha. cbn [bind].
  rewrite asin_in_range by (apply sqrt_unit_bound; exact Ha).
  reflexivity.
Qed.

Lemma great_circle_same_point (lat lon : R) : great_circle lat lon lat lon = 0.
Proof.
  unfold great_circle.
  replace ((Py.radians lat - Py.radians lat) / 2) with 0 by field.
  replace ((Py.radians lon - Py.radians lon) / 2) with 0 by field.
  rewrite sin_0.
  replace (0 ^ 2 + cos (Py.radians lat) * cos (Py.radians lat) * 0 ^ 2)
    with 0 by ring.
  rewrite sqrt_0, asin_0. ring.
Qed.

Lemma haversine_same_point (lat lon : R) : haversine lat lon lat lon = Ok 0.
Proof.
  rewrite haversine_total, great_circle_same_point. reflexivity.
Qed.

(** The distance does not depend on the order of the two points. *)
Lemma great_circle_sym (lat1 lon1 lat2 lon2 : R) :
  great_circle lat1 lon1 lat2 lon2 = great_circle lat2 lon2 lat1 lon1.
Proof.
  unfold great_circle.
  rewrite !sin_half_sq.
  replace (Py.radians lat1 - Py.radians lat2)
    with (- (Py.radians lat2 - Py.radians lat1)) by ring.
  replace (Py.radians lon1 - Py.radians lon2)
    with (- (Py.radians lon2 - Py.radians lon1)) by ring.
  rewrite !cos_neg.
  rewrite (Rmult_comm (cos (Py.radians lat2)) (cos (Py.radians lat1))).
  reflexivity.
Qed.

Lemma compute_bearing_same_point (lat lon : R) :
  compute_bearing lat lon lat lon = 0.
Proof.
  unfold compute_bearing.
  replace (Py.radians lon - Py.radians lon) with 0 by ring.
  rewrite sin_0, cos_0.
  replace (0 * cos (Py.radians lat)) with 0 by ring.
  replace (cos (Py.radians lat) * sin (Py.radians lat)
           - sin (Py.radians lat) * cos (Py.radians lat) * 1) with 0 by ring.
  rewrite atan2_origin. unfold Py.degrees.
  replace (0 * (180 / PI) + 360) with 360 by ring.
  apply mod_self. lra.
Qed.

Lemma compute_bearing_range (lat1 lon1 lat2 lon2 : R) :
  0 <= compute_bearing lat1 lon1 lat2 lon2 < 360.
Proof.
  unfold compute_bearing. apply mod_bound. lra.
Qed.

Lemma radians_0 : Py.radians 0 = 0.
Proof. unfold Py.radians. ring. Qed.

Lemma radians_90 : Py.radians 90 = PI / 2.
Proof. unfold Py.radians. field. Qed.

(** Along the equator, looking east. *)
Lemma bearing_equator_eastward : compute_bearing 0 0 0 90 = 90.
Proof.
  unfold compute_bearing. rewrite radians_0, radians_90.
  replace (PI / 2 - 0) with (PI / 2) by ring.
  rewrite sin_PI2, cos_PI2, sin_0, cos_0.
  replace (1 * 1) with 1 by ring.
  replace (1 * 0 - 0 * 1 * 0) with 0 by ring.
  rewrite atan2_pos_y_axis by lra.
  unfold Py.degrees, Py.mod_.
  replace (PI / 2 * (180 / PI) + 360) with 450 by (field; apply PI_neq0).
  rewrite (Int_part_unique (450 / 360) 1) by lra. lra.
Qed.

(** Along the equator, looking west. *)
Lemma bearing_equator_westward : compute_bearing 0 90 0 0 = 270.
Proof.
  unfold compute_bearing. rewrite radians_0, radians_90.
  replace (0 - PI / 2) with (- (PI / 2)) by ring.
  rewrite sin_neg, cos_neg, sin_PI2, cos_PI2, sin_0, cos_0.
  replace (- (1) * 1) with (-1) by ring.
  replace (1 * 0 - 0 * 1 * 0) with 0 by ring.
  rewrite atan2_neg_y_axis by lra.
  unfold Py.degrees, Py.mod_.
  replace (- (PI / 2) * (180 / PI) + 360) with 270 by (field; apply PI_neq0).
  rewrite (Int_part_unique (270 / 360) 0) by lra. lra.
Qed.

End Formulas.

Section DewPoint.

Lemma tetens_vapor_ratio (x rh : R) :
  6.112 * x * (rh / 100.0) / 6.112 = x * (rh / 100).
Proof. decimals. field. Qed.

Lemma tetens_log (T rh : R) :
  0 < rh ->
  ln (6.112 * exp (17.625 * T / (243.04 + T)) * (rh / 100.0) / 6.112)
  = 17.625 * T / (243.04 + T) + ln (rh / 100).
Proof.
  intros Hrh. rewrite tetens_vapor_ratio.
  rewrite ln_mult.
  - rewrite ln_exp. reflexivity.
  - apply exp_pos.
  - lra.
Qed.

Lemma ln_fraction_nonpos (x : R) : 0 < x <= 1 -> ln x <= 0.
Proof.
  intros [H0 [H1 | H1]].
  - rewrite <- ln_1. left. apply ln_increasing; assumption.
  - rewrite H1, ln_1. lra.
Qed.

Lemma tetens_denominator (T : R) :
  243.04 + T <> 0 ->
  17.625 - 17.625 * T / (243.04 + T) = 17.625 * 243.04 / (243.04 + T).
Proof.
  intros HT. decimals. field.
  intros Hc. apply HT. lra.
Qed.

(** Above -243.04 degrees and for a humidity in (0, 100] the dew
    point is computed without an exception. *)
Lemma calculate_dew_point_defined (p T rh : R) :
  0 < 243.04 + T -> 0 < rh <= 100 ->
  calculate_dew_point p T rh = Ok (dew_point_value T rh).
Proof.
  intros HT [Hrh0 Hrh1].
  unfold calculate_dew_point, dew_point_value.
  rewrite div_nonzero by lra. cbn [bind].
  set (q := 17.625 * T / (243.04 + T)).
  assert (Hpos : 0 < 6.112 * exp q * (rh / 100.0) / 6.112).
  { pose proof (exp_pos q) as He. rewrite tetens_vapor_ratio.
    apply Rmult_lt_0_compat; lra. }
  rewrite log_pos by exact Hpos. cbn [bind].
  apply div_nonzero.
  unfold q. rewrite tetens_log by exact Hrh0.
  assert (Hl : ln (rh / 100) <= 0) by (apply ln_fraction_nonpos; lra).
  pose proof (tetens_denominator T ltac:(lra)) as Hq.
  assert (Hq' : 0 < 17.625 * 243.04 / (243.04 + T)).
  { apply Rdiv_lt_0_compat; lra. }
  lra.
Qed.

(** At saturation the inversion gives the temperature back. *)
Lemma dew_point_value_saturated (T : R) :
  0 < 243.04 + T -> dew_point_value T 100 = T.
Proof.
  intros HT. unfold dew_point_value.
  rewrite tetens_log by lra.
  replace (100 / 100) with 1 by field. rewrite ln_1, Rplus_0_r.
  assert (HT' : 243.04 + T <> 0) by lra.
  rewrite (tetens_denominator T HT').
  decimals. field.
  intros Hc. apply HT'. lra.
Qed.


End DewPoint.

(** ** Facts about one iteration of the loop *)

Section Engine.

Lemma row_delta_no_previous (st : State) (row : Row) :
  lasttime st = 0 -> row_delta st row = 0.
Proof.
  intros H. unfold row_delta. rewrite H, truthy_zero. reflexivity.
Qed.

Lemma row_delta_previous (st : State) (row : Row) :
  lasttime st <> 0 -> row_delta st row = Time row - lasttime st.
Proof.
  intros H. unfold row_delta. rewrite truthy_nonzero by exact H. reflexivity.
Qed.

(** Line 87: a row above 90 degrees is passed over. *)
Lemma process_row_skip (st : State) (row : Row) :
  Lat_PosX row > 90 -> process_row st row = Ok (st, None).
Proof.
  intros H. unfold process_row.
  destruct (Rgt_dec (Lat_PosX row) 90) as [_ | Hn]; [reflexivity | contradiction].
Qed.

(** No previous position: the derived values are carried over. *)
Lemma derive_no_position (st : State) (row : Row) (delta : R) :
  ~ lastlat st < 90 ->
  derive st row delta = Ok (distance st, bearing st, speed st, dew_point st).
Proof.
  intros H. unfold derive.
  destruct (Rlt_dec (lastlat st) 90) as [Hl | _]; [contradiction | reflexivity].
Qed.

(** A previous position and [delta = 0]: line 98 divides by zero. *)
Lemma derive_zero_delta (st : State) (row : Row) :
  lastlat st < 90 -> derive st row 0 = Err ZeroDivisionError.
Proof.
  intros H. unfold derive.
  destruct (Rlt_dec (lastlat st) 90) as [_ | Hn]; [ | contradiction].
  rewrite haversine_total. cbn [bind]. rewrite div_zero. reflexivity.
Qed.

(** A previous position, [delta <> 0] and a humidity and temperature in
    the domain of the dew point: all four values are recomputed. *)
Lemma derive_position (st : State) (row : Row) (delta : R) :
  lastlat st < 90 -> delta <> 0 ->
  0 < 243.04 + AirT row -> 0 < RH row <= 100 ->
  derive st row delta =
  Ok (great_circle (Lat_PosX row) (Long_PosY row) (lastlat st) (lastlon st),
      compute_bearing (Lat_PosX row) (Long_PosY row) (lastlat st) (lastlon st),
      great_circle (Lat_PosX row) (Long_PosY row) (lastlat st) (lastlon st)
        * 1000 / delta,
      dew_point_value (AirT row) (RH row)).
Proof.
  intros Hl Hd HT Hrh. unfold derive.
  destruct (Rlt_dec (lastlat st) 90) as [_ | Hn]; [ | contradiction].
  rewrite haversine_total. cbn [bind].
  rewrite div_nonzero by exact Hd. cbn [bind].
  rewrite calculate_dew_point_defined by assumption. reflexivity.
Qed.

(** Whatever [derive] returns, its bearing component is the bearing from
    the row to the stored position when there is one. *)
Lemma derive_bearing (st : State) (row : Row) (delta d b s w : R) :
  lastlat st < 90 -> derive st row delta = Ok (d, b, s, w) ->
  b = compute_bearing (Lat_PosX row) (Long_PosY row) (lastlat st) (lastlon st).
Proof.
  intros Hl. unfold derive.
  destruct (Rlt_dec (lastlat st) 90) as [_ | Hn]; [ | contradiction].
  rewrite haversine_total. cbn [bind].
  destruct (Py.div _ delta); cbn [bind]; [ | discriminate].
  destruct (calculate_dew_point _ _ _); cbn [bind]; [ | discriminate].
  intros H. injection H as <- <- <- <-. reflexivity.
Qed.


(** The shape of a completed iteration on a row that is not passed over. *)
Lemma process_row_inv (st : State) (row : Row) st' out :
  Lat_PosX row <= 90 -> process_row st row = Ok (st', out) ->
  exists d b s w,
    derive st row (row_delta st row) = Ok (d, b, s, w) /\
    st' = mkState (Time row) (Lat_PosX row) (Long_PosY row) d b s w /\
    out = if Py.truthy (row_delta st row)
          then Some (mkFeature (Long_PosY row, Lat_PosX row, Alt_PosZ row)
                               (Baro row) (RH row) (AirT row)
                               w (row_delta st row) d b s,
                     Data (Alt_PosZ row) (Baro row) (AirT row) w b s)
          else None.
Proof.
  intros Hlat. unfold process_row.
  destruct (Rgt_dec (Lat_PosX row) 90) as [Hg | _]; [lra | ].
  destruct (derive st row (row_delta st row)) as [[[[d b] s] w] | e];
    cbn [bind]; [ | discriminate].
  intros H. exists d, b, s, w. split; [reflexivity | ].
  destruct (Py.truthy (row_delta st row)); injection H as <- <-; auto.
Qed.

Lemma process_row_derived (st : State) (row : Row) (d b s w : R) :
  Lat_PosX row <= 90 ->
  derive st row (row_delta st row) = Ok (d, b, s, w) ->
  process_row st row =
  Ok (mkState (Time row) (Lat_PosX row) (Long_PosY row) d b s w,
      if Py.truthy (row_delta st row)
      then Some (mkFeature (Long_PosY row, Lat_PosX row, Alt_PosZ row)
                           (Baro row) (RH row) (AirT row)
                           w (row_delta st row) d b s,
                 Data (Alt_PosZ row) (Baro row) (AirT row) w b s)
      else None).
Proof.
  intros Hlat Hd. unfold process_row.
  destruct (Rgt_dec (Lat_PosX row) 90) as [Hg | _]; [lra | ].
  rewrite Hd. cbn [bind].
  destruct (Py.truthy (row_delta st row)); reflexivity.
Qed.

Lemma process_row_raises (st : State) (row : Row) (e : exn) :
  Lat_PosX row <= 90 ->
  derive st row (row_delta st row) = Err e ->
  process_row st row = Err e.
Proof.
  intros Hlat Hd. unfold process_row.
  destruct (Rgt_dec (Lat_PosX row) 90) as [Hg | _]; [lra | ].
  rewrite Hd. reflexivity.
Qed.

(** Lines 94, 100 and 101 as seen from the next iteration. *)
Lemma process_row_state (st : State) (row : Row) st' out :
  Lat_PosX row <= 90 -> process_row st row = Ok (st', out) ->
  lasttime st' = Time row /\ lastlat st' = Lat_PosX row
  /\ lastlon st' = Long_PosY row.
Proof.
  intros Hlat H.
  destruct (process_row_inv st row st' out Hlat H)
    as (d & b & s & w & _ & -> & _).
  cbn. auto.
Qed.

(** No previous position: nothing is recomputed and nothing can raise. *)
Lemma process_row_no_position (st : State) (row : Row) :
  Lat_PosX row <= 90 -> ~ lastlat st < 90 ->
  process_row st row =
  Ok (mkState (Time row) (Lat_PosX row) (Long_PosY row)
              (distance st) (bearing st) (speed st) (dew_point st),
      if Py.truthy (row_delta st row)
      then Some (mkFeature (Long_PosY row, Lat_PosX row, Alt_PosZ row)
                           (Baro row) (RH row) (AirT row)
                           (dew_point st) (row_delta st row)
                           (distance st) (bearing st) (speed st),
                 Data (Alt_PosZ row) (Baro row) (AirT row)
                      (dew_point st) (bearing st) (speed st))
      else None).
Proof.
  intros Hlat Hl. apply process_row_derived; [exact Hlat | ].
  apply derive_no_position. exact Hl.
Qed.

(** A previous position and [delta = 0]: the iteration raises. *)
Lemma process_row_zero_delta (st : State) (row : Row) :
  Lat_PosX row <= 90 -> lastlat st < 90 -> row_delta st row = 0 ->
  process_row st row = Err ZeroDivisionError.
Proof.
  intros Hlat Hl Hd. apply process_row_raises; [exact Hlat | ].
  rewrite Hd. apply derive_zero_delta. exact Hl.
Qed.

(** [delta <> 0] and a dew point in its domain: the row is emitted. *)
Lemma process_row_emits (st : State) (row : Row) :
  Lat_PosX row <= 90 -> row_delta st row <> 0 ->
  0 < 243.04 + AirT row -> 0 < RH row <= 100 ->
  exists d b s w,
    process_row st row =
    Ok (mkState (Time row) (Lat_PosX row) (Long_PosY row) d b s w,
        Some (mkFeature (Long_PosY row, Lat_PosX row, Alt_PosZ row)
                        (Baro row) (RH row) (AirT row)
                        w (row_delta st row) d b s,
              Data (Alt_PosZ row) (Baro row) (AirT row) w b s)).
Proof.
  intros Hlat Hd HT Hrh.
  destruct (Rlt_dec (lastlat st) 90) as [Hl | Hl].
  - eexists _, _, _, _.
    rewrite (process_row_derived st row _ _ _ _ Hlat
               (derive_position st row _ Hl Hd HT Hrh)).
    rewrite truthy_nonzero by exact Hd. reflexivity.
  - exists (distance st), (bearing st), (speed st), (dew_point st).
    rewrite process_row_no_position by assumption.
    rewrite truthy_nonzero by exact Hd. reflexivity.
Qed.

(** Two rows with the same timestamp, the first one below 90 degrees:
    the second one raises at line 98. *)
Lemma equal_timestamps_raise (st : State) (prev cur : Row) st1 o1 :
  Lat_PosX prev < 90 -> Lat_PosX cur <= 90 -> Time cur = Time prev ->
  process_row st prev = Ok (st1, o1) ->
  process_row st1 cur = Err ZeroDivisionError.
Proof.
  intros Hp Hc Ht Hstep.
  destruct (process_row_state st prev st1 o1 ltac:(lra) Hstep)
    as (Htime & Hlat & _).
  apply process_row_zero_delta; [exact Hc | lra | ].
  destruct (Req_dec_T (lasttime st1) 0) as [Hz | Hnz].
  - apply row_delta_no_previous. exact Hz.
  - rewrite row_delta_previous by exact Hnz. lra.
Qed.

(** Rows above 90 degrees in front of the remaining rows change nothing. *)
Lemma loop_skip (skipped rest : list Row) (st : State) ws features :
  Forall (fun row => Lat_PosX row > 90) skipped ->
  loop st (skipped ++ rest) ws features = loop st rest ws features.
Proof.
  induction 1 as [ | row skipped Hrow _ IH]; [reflexivity | ].
  cbn [app loop]. rewrite process_row_skip by exact Hrow. exact IH.
Qed.

End Engine.

(** ** The formulas: dew point at saturation, coincident points, range *)

(** C8.  For every temperature [T] with [243.04 + T > 0] and every pressure
    [p], [calculate_dew_point p T 100] returns [T]: at 100 % relative
    humidity the actual vapor pressure is the saturation vapor pressure.
    The equality is exact over the reals. *)
Theorem dew_point_at_saturation (p T : R) :
  243.04 + T > 0 -> calculate_dew_point p T 100 = Ok T.
Proof.
  intros HT.
  rewrite calculate_dew_point_defined by lra.
  rewrite dew_point_value_saturated by lra. reflexivity.
Qed.

Lemma dew_point_at_saturation_witness :
  243.04 + 19 > 0 /\ calculate_dew_point 999 19 100 = Ok 19.
Proof.
  split; [lra | apply (dew_point_at_saturation 999 19); lra].
Defined.

(** C9.  For every valid latitude/longitude pair, [haversine] of the point
    with itself is 0 and [compute_bearing] of the point with itself is 0;
    neither raises. *)
Theorem coincident_points (lat lon : R) :
  -90 <= lat <= 90 -> -180 <= lon <= 180 ->
  haversine lat lon lat lon = Ok 0 /\ compute_bearing lat lon lat lon = 0.
Proof.
  intros _ _. split.
  - apply haversine_same_point.
  - apply compute_bearing_same_point.
Qed.

Lemma coincident_points_witness :
  haversine 10 20 10 20 = Ok 0 /\ compute_bearing 10 20 10 20 = 0.
Proof.
  apply (coincident_points 10 20); lra.
Defined.

(** C10.  For every pair of points with valid latitudes and longitudes,
    the result of [compute_bearing] is at least 0 and strictly less than
    360. *)
Theorem bearing_range (lat1 lon1 lat2 lon2 : R) :
  -90 <= lat1 <= 90 -> -180 <= lon1 <= 180 ->
  -90 <= lat2 <= 90 -> -180 <= lon2 <= 180 ->
  0 <= compute_bearing lat1 lon1 lat2 lon2 < 360.
Proof.
  intros _ _ _ _. apply compute_bearing_range.
Qed.

Lemma bearing_range_witness :
  0 <= compute_bearing 10 20 10.001 20.001 < 360.
Proof.
  apply (bearing_range 10 20 10.001 20.001); lra.
Defined.

(** ** The loop: skipped rows and the state update *)

(** C6.  For every row whose latitude exceeds 90 degrees, processing the
    row produces no line and no feature and leaves the whole state (last
    timestamp, last latitude, last longitude and the carried distance,
    bearing, speed and dew point) unchanged; the loop goes on as if the
    row were absent. *)
Theorem skip_rule (st : State) (row : Row) :
  Lat_PosX row > 90 ->
  process_row st row = Ok (st, None)
  /\ forall rest ws features,
       loop st (row :: rest) ws features = loop st rest ws features.
Proof.
  intros Hlat. split.
  - apply process_row_skip. exact Hlat.
  - intros rest ws features. cbn [loop].
    rewrite process_row_skip by exact Hlat. reflexivity.
Qed.

Lemma skip_rule_witness :
  Lat_PosX Sample.footer_row > 90
  /\ process_row Sample.pole_state Sample.footer_row
     = Ok (Sample.pole_state, None).
Proof.
  split.
  - cbn. lra.
  - apply (skip_rule Sample.pole_state Sample.footer_row). cbn. lra.
Defined.


(** The first row of a log never finds a previous position. *)
Lemma first_row_step (row : Row) :
  Lat_PosX row <= 90 ->
  process_row init_state row
  = Ok (mkState (Time row) (Lat_PosX row) (Long_PosY row) 0 0 0 0, None).
Proof.
  intros Hlat.
  rewrite process_row_no_position by (cbn; lra).
  rewrite row_delta_no_previous by reflexivity.
  rewrite truthy_zero. reflexivity.
Qed.



(** ** The loop: the timestamp 0 *)

(** C3.  For every row with latitude at most 90 whose timestamp is exactly
    0, the next such row (rows above 90 degrees in between are passed
    over) gets [delta = 0] whatever its own timestamp, because [lasttime]
    is tested for truth and 0 is also its initial value; that row is
    therefore never emitted. *)
Theorem zero_timestamp_hides_previous
        (st : State) (row : Row) st' out (skipped : list Row) (next : Row) :
  Lat_PosX row <= 90 -> Time row = 0 ->
  process_row st row = Ok (st', out) ->
  Forall (fun r => Lat_PosX r > 90) skipped ->
  Lat_PosX next <= 90 ->
  (forall rest ws features,
      loop st' (skipped ++ next :: rest) ws features
      = loop st' (next :: rest) ws features)
  /\ row_delta st' next = 0
  /\ forall st'' out', process_row st' next = Ok (st'', out') -> out' = None.
Proof.
  intros Hlat Ht Hstep Hskip Hnext.
  destruct (process_row_state st row st' out Hlat Hstep) as (Htime & _).
  assert (Hd : row_delta st' next = 0).
  { apply row_delta_no_previous. congruence. }
  split; [ | split].
  - intros rest ws features. apply loop_skip. exact Hskip.
  - exact Hd.
  - intros st'' out' Hstep'.
    destruct (process_row_inv st' next st'' out' Hnext Hstep')
      as (d & b & s & w & _ & _ & ->).
    rewrite Hd, truthy_zero. reflexivity.
Qed.

Lemma zero_timestamp_hides_previous_witness :
  process_row init_state Sample.start_row = Ok (mkState 0 10 20 0 0 0 0, None)
  /\ row_delta (mkState 0 10 20 0 0 0 0) Sample.second_row = 0.
Proof.
  assert (Hstep : process_row init_state Sample.start_row
                  = Ok (mkState 0 10 20 0 0 0 0, None)).
  { apply (first_row_step Sample.start_row). cbn. lra. }
  split; [exact Hstep | ].
  apply (zero_timestamp_hides_previous
           init_state Sample.start_row (mkState 0 10 20 0 0 0 0) None
           [Sample.footer_row] Sample.second_row).
  - cbn. lra.
  - reflexivity.
  - exact Hstep.
  - constructor; [cbn; lra | constructor].
  - cbn. lra.
Defined.

(** ** The loop: division by [delta] *)

(** C2.  On the two rows of the end-to-end example the conversion does not
    produce a data line or a feature collection: the first row has
    timestamp 0, the second row gets [delta = 0], and line 98 raises
    [ZeroDivisionError].  Only the header has been written. *)
Theorem end_to_end_example_raises :
  dataframe_to_geojson [Sample.start_row; Sample.second_row]
  = mkOutcome [Header] None (Some ZeroDivisionError).
Proof.
  unfold dataframe_to_geojson. cbn [loop].
  rewrite first_row_step by (cbn; lra).
  rewrite process_row_zero_delta; [reflexivity | cbn; lra | cbn; lra | ].
  apply row_delta_no_previous. reflexivity.
Qed.

(** C1.  On a log whose second and third rows carry the same timestamp the
    conversion raises: the second row is emitted, the third row gets
    [delta = 0] and the division of line 98 is evaluated before the test
    of [delta] at line 115.  The feature collection is never written. *)
Theorem identical_timestamps_raise :
  exists line,
    dataframe_to_geojson
      [Sample.row_t1; Sample.row_t5; Sample.row_t5_again]
    = mkOutcome [Header; line] None (Some ZeroDivisionError).
Proof.
  unfold dataframe_to_geojson. cbn [loop].
  rewrite first_row_step by (cbn; lra).
  set (st1 := mkState _ _ _ 0 0 0 0).
  assert (Hd : row_delta st1 Sample.row_t5 <> 0).
  { rewrite row_delta_previous by (cbn; lra). cbn. lra. }
  destruct (process_row_emits st1 Sample.row_t5) as (d & b & s & w & Hstep);
    [cbn; lra | exact Hd | cbn; lra | cbn; lra | ].
  rewrite Hstep.
  rewrite (equal_timestamps_raise st1 Sample.row_t5 Sample.row_t5_again _ _)
    by (first [exact Hstep | reflexivity | cbn; lra]).
  eexists. reflexivity.
Qed.

(** ** The emitted bearing *)

(** C4, as stated, fails.  Two rows on the equator, the second one a
    quarter turn east of the first: the bearing from the previous row to
    the current one is 90, the emitted feature carries 270. *)
Lemma bearing_previous_to_current_refuted :
  exists f,
    gj_written
      (dataframe_to_geojson [Sample.equator_west; Sample.equator_east])
    = Some [f]
    /\ p_bearing f = 270
    /\ p_bearing f <>
       compute_bearing
         (Lat_PosX Sample.equator_west) (Long_PosY Sample.equator_west)
         (Lat_PosX Sample.equator_east) (Long_PosY Sample.equator_east).
Proof.
  unfold dataframe_to_geojson. cbn [loop].
  rewrite first_row_step by (cbn; lra).
  set (st1 := mkState _ _ _ 0 0 0 0).
  assert (Hd : row_delta st1 Sample.equator_east <> 0).
  { rewrite row_delta_previous by (cbn; lra). cbn. lra. }
  rewrite (process_row_derived st1 Sample.equator_east _ _ _ _
             ltac:(cbn; lra)
             (derive_position st1 Sample.equator_east _
                ltac:(cbn; lra) Hd ltac:(cbn; lra) ltac:(cbn; lra))).
  rewrite truthy_nonzero by exact Hd.
  eexists. split; [reflexivity | ].
  cbn. rewrite bearing_equator_westward, bearing_equator_eastward.
  split; lra.
Qed.

(** C4, amended.  For every emitted row whose previous row (the last one
    not passed over) lies below 90 degrees, the bearing of the feature and
    of the line is the initial compass bearing from the current row's
    position (point 1) to the previous row's position (point 2):
    [compute_bearing] is called with the current position as its first
    argument pair. *)
Theorem bearing_current_to_previous
        (st : State) (prev cur : Row) st1 o1 st2 f l :
  Lat_PosX prev < 90 ->
  process_row st prev = Ok (st1, o1) ->
  process_row st1 cur = Ok (st2, Some (f, l)) ->
  p_bearing f =
    compute_bearing (Lat_PosX cur) (Long_PosY cur)
                    (Lat_PosX prev) (Long_PosY prev)
  /\ l = Data (Alt_PosZ cur) (Baro cur) (AirT cur)
              (p_dew_point f) (p_bearing f) (p_speed f).
Proof.
  intros Hprev Hstep1 Hstep2.
  destruct (process_row_state st prev st1 o1 ltac:(lra) Hstep1)
    as (_ & Hlat & Hlon).
  assert (Hcur : Lat_PosX cur <= 90).
  { destruct (Rle_dec (Lat_PosX cur) 90) as [H | H]; [exact H | ].
    rewrite process_row_skip in Hstep2 by lra. discriminate. }
  destruct (process_row_inv st1 cur st2 _ Hcur Hstep2)
    as (d & b & s & w & Hder & _ & Hout).
  apply derive_bearing in Hder; [ | lra].
  destruct (Py.truthy (row_delta st1 cur)); [ | discriminate].
  injection Hout as -> ->. cbn. rewrite Hder, Hlat, Hlon. auto.
Qed.

Lemma bearing_current_to_previous_witness :
  exists st2 f l,
    process_row (mkState 1 0 0 0 0 0 0) Sample.equator_east
    = Ok (st2, Some (f, l))
    /\ p_bearing f = compute_bearing 0 90 0 0.
Proof.
  assert (Hd : row_delta (mkState 1 0 0 0 0 0 0) Sample.equator_east <> 0).
  { rewrite row_delta_previous by (cbn; lra). cbn. lra. }
  destruct (process_row_emits (mkState 1 0 0 0 0 0 0) Sample.equator_east)
    as (d & b & s & w & Hstep);
    [cbn; lra | exact Hd | cbn; lra | cbn; lra | ].
  eexists _, _, _. split; [exact Hstep | ].
  refine (proj1 (bearing_current_to_previous
                   init_state Sample.equator_west Sample.equator_east
                   (mkState 1 0 0 0 0 0 0) None _ _ _ _ _ Hstep)).
  - cbn. lra.
  - apply (first_row_step Sample.equator_west). cbn. lra.
Defined.

(** ** Three rows *)




(** ** Further facts about the formulas *)

Section FormulasMore.

Lemma asin_unit_range (x : R) : 0 <= x <= 1 -> 0 <= Ratan.asin x <= PI / 2.
Proof.
  intros [H0 H1].
  destruct (asin_bound x) as [Hlo Hhi].
  split; [ | exact Hhi].
  destruct (Rle_dec 0 (Ratan.asin x)) as [H | H]; [exact H | ].
  assert (Hneg : sin (Ratan.asin x) < 0).
  { pose proof PI_RGT_0. apply sin_lt_0_var; lra. }
  rewrite sin_asin in Hneg by lra. lra.
Qed.

Lemma great_circle_range (lat1 lon1 lat2 lon2 : R) :
  0 <= great_circle lat1 lon1 lat2 lon2 <= PI * 6371000.
Proof.
  unfold great_circle.
  pose proof (haversine_term_bound (Py.radians lat1) (Py.radians lat2)
                (Py.radians lon2 - Py.radians lon1)) as Ha.
  set (a := sin _ ^ 2 + _) in *.
  assert (Hs : 0 <= R_sqrt.sqrt a <= 1).
  { split; [apply sqrt_pos | apply sqrt_unit_bound; exact Ha]. }
  pose proof (asin_unit_range _ Hs) as [Hlo Hhi].
  split; nra.
Qed.

(** The [x] of [compute_bearing] on a meridian is the sine of the
    latitude difference. *)
Lemma meridian_x (p1 p2 : R) :
  cos p1 * sin p2 - sin p1 * cos p2 * cos 0 = sin (p2 - p1).
Proof. rewrite cos_0, sin_minus. ring. Qed.

Lemma radians_diff (a b : R) :
  Py.radians b - Py.radians a = (b - a) * (PI / 180).
Proof. unfold Py.radians. ring. Qed.

Lemma radians_diff_pos (a b : R) :
  a < b -> b - a < 180 ->
  0 < Py.radians b - Py.radians a < PI.
Proof.
  intros H1 H2. rewrite radians_diff. pose proof PI_RGT_0 as Hpi.
  split.
  - apply Rmult_lt_0_compat; lra.
  - replace PI with (180 * (PI / 180)) at 2 by field.
    apply Rmult_lt_compat_r; lra.
Qed.

Lemma radians_diff_neg (a b : R) :
  b < a -> a - b < 180 ->
  - PI < Py.radians b - Py.radians a < 0.
Proof.
  intros H1 H2.
  pose proof (radians_diff_pos b a H1 H2). lra.
Qed.

Lemma atan2_pos_x_axis (x : R) : 0 < x -> Py.atan2 0 x = 0.
Proof.
  intros Hx. unfold Py.atan2.
  destruct (Rlt_dec 0 x) as [_ | H]; [ | contradiction].
  replace (0 / x) with 0 by (field; lra). apply atan_0.
Qed.

Lemma atan2_neg_x_axis (x : R) : x < 0 -> Py.atan2 0 x = PI.
Proof.
  intros Hx. unfold Py.atan2.
  destruct (Rlt_dec 0 x) as [H | _]; [lra | ].
  destruct (Rlt_dec x 0) as [_ | H]; [ | contradiction].
  destruct (Rle_dec 0 0) as [_ | H]; [ | lra].
  replace (0 / x) with 0 by (field; lra). rewrite atan_0. ring.
Qed.

Lemma mod_360 (x : R) (n : Z) :
  IZR n * 360 <= x < IZR n * 360 + 360 ->
  Py.mod_ x 360 = x - 360 * IZR n.
Proof.
  intros [Hlo Hhi]. unfold Py.mod_.
  rewrite (Int_part_unique (x / 360) n) by lra. reflexivity.
Qed.

Lemma bearing_of_angle (a : R) (d : R) :
  Py.degrees a = d -> 0 <= d < 360 ->
  Py.mod_ (Py.degrees a + 360) 360 = d.
Proof.
  intros -> Hd. rewrite (mod_360 _ 1) by lra. lra.
Qed.

Lemma degrees_0 : Py.degrees 0 = 0.
Proof. unfold Py.degrees. ring. Qed.

Lemma degrees_PI : Py.degrees PI = 180.
Proof. unfold Py.degrees. field. apply PI_neq0. Qed.

Lemma degrees_PI2 : Py.degrees (PI / 2) = 90.
Proof. unfold Py.degrees. field. apply PI_neq0. Qed.

Lemma degrees_neg_PI2 : Py.degrees (- (PI / 2)) = -90.
Proof. unfold Py.degrees. field. apply PI_neq0. Qed.





End FormulasMore.

(** ** The formulas: domain, range and orientation *)


(** X2.  [haversine] does not depend on the order of the two points. *)
Theorem haversine_symmetric (lat1 lon1 lat2 lon2 : R) :
  haversine lat1 lon1 lat2 lon2 = haversine lat2 lon2 lat1 lon1.
Proof.
  rewrite !haversine_total. f_equal. apply great_circle_sym.
Qed.

(** X3.  Two distinct points on one meridian, less than 180 degrees of
    latitude apart: [compute_bearing] is 0 when the second point is north
    of the first and 180 when it is south. *)
Theorem bearing_on_meridian (lat1 lat2 lon : R) :
  lat1 <> lat2 -> -180 < lat2 - lat1 < 180 ->
  compute_bearing lat1 lon lat2 lon
  = if Rlt_dec lat1 lat2 then 0 else 180.
Proof.
  intros Hne [Hlo Hhi]. unfold compute_bearing.
  replace (Py.radians lon - Py.radians lon) with 0 by ring.
  rewrite meridian_x, sin_0, Rmult_0_l.
  destruct (Rlt_dec lat1 lat2) as [Hlt | Hge].
  - destruct (radians_diff_pos lat1 lat2 Hlt Hhi) as [H0 H1].
    rewrite atan2_pos_x_axis by (apply sin_gt_0; assumption).
    rewrite degrees_0, Rplus_0_l. apply mod_self. lra.
  - destruct (radians_diff_neg lat1 lat2 ltac:(lra) ltac:(lra)) as [H0 H1].
    rewrite atan2_neg_x_axis by (apply sin_lt_0_var; assumption).
    apply bearing_of_angle; [apply degrees_PI | lra].
Qed.

Lemma bearing_on_meridian_witness :
  compute_bearing 10 20 11 20 = (if Rlt_dec 10 11 then 0 else 180).
Proof.
  apply (bearing_on_meridian 10 11 20); lra.
Defined.

(** X4.  Two distinct points on the equator, less than 180 degrees of
    longitude apart: [compute_bearing] is 90 when the second point is
    east of the first and 270 when it is west. *)
Theorem bearing_on_equator (lon1 lon2 : R) :
  lon1 <> lon2 -> -180 < lon2 - lon1 < 180 ->
  compute_bearing 0 lon1 0 lon2
  = if Rlt_dec lon1 lon2 then 90 else 270.
Proof.
  intros Hne [Hlo Hhi]. unfold compute_bearing.
  rewrite radians_0, sin_0, cos_0.
  replace (1 * 0 - 0 * 1 * cos (Py.radians lon2 - Py.radians lon1))
    with 0 by ring.
  rewrite Rmult_1_r.
  destruct (Rlt_dec lon1 lon2) as [Hlt | Hge].
  - destruct (radians_diff_pos lon1 lon2 Hlt Hhi) as [H0 H1].
    rewrite atan2_pos_y_axis by (apply sin_gt_0; assumption).
    apply bearing_of_angle; [apply degrees_PI2 | lra].
  - destruct (radians_diff_neg lon1 lon2 ltac:(lra) ltac:(lra)) as [H0 H1].
    rewrite atan2_neg_y_axis by (apply sin_lt_0_var; assumption).
    rewrite degrees_neg_PI2.
    rewrite (mod_360 _ 0) by lra. lra.
Qed.

Lemma bearing_on_equator_witness :
  compute_bearing 0 90 0 0 = (if Rlt_dec 90 0 then 90 else 270).
Proof.
  apply (bearing_on_equator 90 0); lra.
Defined.





(** ** Facts about whole runs *)

Section Runs.

Lemma truthy_inv (x : R) : Py.truthy x = true -> x <> 0.
Proof.
  unfold Py.truthy. destruct (Req_dec_T x 0); [discriminate | auto].
Qed.

Lemma processed_true (row : Row) :
  processed row = true <-> Lat_PosX row <= 90.
Proof.
  unfold processed.
  destruct (Rgt_dec (Lat_PosX row) 90); split; try discriminate; auto; lra.
Qed.

Lemma processed_false (row : Row) :
  processed row = false <-> Lat_PosX row > 90.
Proof.
  unfold processed.
  destruct (Rgt_dec (Lat_PosX row) 90); split; try discriminate; auto; lra.
Qed.

(** Everything an emitted pair says about the iteration it comes from. *)
Lemma process_row_emitted (st : State) (row : Row) st' f l :
  process_row st row = Ok (st', Some (f, l)) ->
  Lat_PosX row <= 90 /\ row_delta st row <> 0
  /\ l = line_of f /\ built_from f row
  /\ p_dT f = row_delta st row
  /\ derive st row (row_delta st row)
     = Ok (p_distance f, p_bearing f, p_speed f, p_dew_point f)
  /\ st' = mkState (Time row) (Lat_PosX row) (Long_PosY row)
                   (p_distance f) (p_bearing f) (p_speed f) (p_dew_point f).
Proof.
  intros Hstep.
  assert (Hlat : Lat_PosX row <= 90).
  { destruct (Rle_dec (Lat_PosX row) 90) as [H | H]; [exact H | ].
    rewrite process_row_skip in Hstep by lra. discriminate. }
  destruct (process_row_inv st row st' _ Hlat Hstep)
    as (d & b & s & w & Hder & -> & Hout).
  destruct (Py.truthy (row_delta st row)) eqn:Htruth; [ | discriminate].
  injection Hout as -> ->.
  split; [exact Hlat | ].
  split; [apply truthy_inv; exact Htruth | ].
  unfold built_from, line_of, position. cbn. auto 10.
Qed.

(** A row that finds [lasttime = 0] is never emitted. *)
Lemma process_row_no_previous (st : State) (row : Row) st' out :
  lasttime st = 0 -> process_row st row = Ok (st', out) -> out = None.
Proof.
  intros Hz Hstep. destruct out as [[f l] | ]; [ | reflexivity].
  destruct (process_row_emitted st row st' f l Hstep) as (_ & Hd & _).
  rewrite row_delta_no_previous in Hd by exact Hz. contradiction.
Qed.

(** The shape of every run of the loop. *)
Lemma loop_shape (rows : list Row) :
  forall st ws fs,
  exists feats,
    ws_written (loop st rows ws fs) = (ws ++ map line_of feats)%list
    /\ ((gj_written (loop st rows ws fs) = Some (fs ++ feats)%list
         /\ raised (loop st rows ws fs) = None)
        \/ (gj_written (loop st rows ws fs) = None
            /\ exists e, raised (loop st rows ws fs) = Some e)).
Proof.
  induction rows as [ | row rest IH]; intros st ws fs; cbn [loop].
  - exists []. cbn. rewrite !app_nil_r. auto.
  - destruct (process_row st row) as [[st' [[f l] | ]] | e] eqn:Hstep.
    + destruct (process_row_emitted st row st' f l Hstep) as (_ & _ & -> & _).
      destruct (IH st' (ws ++ [line_of f])%list (fs ++ [f])%list)
        as (feats & Hws & Hgj).
      exists (f :: feats). cbn [map].
      rewrite <- !app_assoc in *. cbn [app] in *. auto.
    + apply IH.
    + exists []. cbn. rewrite app_nil_r.
      split; [reflexivity | right; eauto].
Qed.

(** Rows passed over can be left out of the input. *)
Lemma loop_filter (rows : list Row) :
  forall st ws fs,
    loop st (filter processed rows) ws fs = loop st rows ws fs.
Proof.
  induction rows as [ | row rest IH]; intros st ws fs; [reflexivity | ].
  cbn [filter]. destruct (processed row) eqn:Hp.
  - cbn [loop].
    destruct (process_row st row) as [[st' [[f l] | ]] | e]; auto.
  - cbn [loop]. apply processed_false in Hp.
    rewrite process_row_skip by exact Hp. apply IH.
Qed.

(** A run over a longer input extends the run over its beginning. *)
Lemma loop_app (rows1 rows2 : list Row) :
  forall st ws fs,
    (forall e, raised (loop st rows1 ws fs) = Some e ->
               loop st (rows1 ++ rows2) ws fs = loop st rows1 ws fs)
    /\ exists more,
         ws_written (loop st (rows1 ++ rows2) ws fs)
         = (ws_written (loop st rows1 ws fs) ++ more)%list.
Proof.
  induction rows1 as [ | row rest IH]; intros st ws fs.
  - cbn [app loop raised ws_written]. split; [discriminate | ].
    destruct (loop_shape rows2 st ws fs) as (feats & Hws & _). eauto.
  - cbn [app loop].
    destruct (process_row st row) as [[st' [[f l] | ]] | e]; try apply IH.
    cbn. split; [reflexivity | ]. exists []. rewrite app_nil_r. reflexivity.
Qed.

Lemma Subseq_length {A : Type} (xs ys : list A) :
  Subseq xs ys -> (List.length xs <= List.length ys)%nat.
Proof.
  induction 1; cbn; lia.
Qed.

(** What a completed run emits comes, in order, from the rows it has
    processed. *)
Lemma loop_emitted (rows : list Row) :
  forall st ws fs out,
    gj_written (loop st rows ws fs) = Some out ->
    exists feats sub,
      out = (fs ++ feats)%list
      /\ Forall2 (fun f row => built_from f row /\ p_dT f <> 0) feats sub
      /\ Subseq sub (filter processed rows).
Proof.
  induction rows as [ | row rest IH]; intros st ws fs out; cbn [loop].
  - cbn. intros [= <-]. exists [], []. rewrite app_nil_r.
    repeat split; constructor.
  - destruct (process_row st row) as [[st' [[f l] | ]] | e] eqn:Hstep.
    + destruct (process_row_emitted st row st' f l Hstep)
        as (Hlat & Hd & _ & Hb & HdT & _).
      intros Hrun.
      destruct (IH _ _ _ _ Hrun) as (feats & sub & -> & Hall & Hsub).
      exists (f :: feats), (row :: sub).
      rewrite <- app_assoc. cbn [app filter].
      apply processed_true in Hlat. rewrite Hlat.
      repeat split.
      * constructor; [ | exact Hall]. split; [exact Hb | congruence].
      * constructor. exact Hsub.
    + intros Hrun.
      destruct (IH _ _ _ _ Hrun) as (feats & sub & -> & Hall & Hsub).
      exists feats, sub. repeat split; [exact Hall | ].
      cbn [filter]. destruct (processed row); [constructor | ]; exact Hsub.
    + cbn. discriminate.
Qed.

(** The same from a state without a stored timestamp: the first processed
    row is not among the emitted ones. *)
Lemma loop_emitted_first (rows : list Row) :
  forall st ws fs out,
    lasttime st = 0 ->
    gj_written (loop st rows ws fs) = Some out ->
    exists feats sub,
      out = (fs ++ feats)%list
      /\ Forall2 (fun f row => built_from f row /\ p_dT f <> 0) feats sub
      /\ Subseq sub (tl (filter processed rows)).
Proof.
  induction rows as [ | row rest IH]; intros st ws fs out Hz; cbn [loop].
  - cbn. intros [= <-]. exists [], []. rewrite app_nil_r.
    repeat split; constructor.
  - cbn [filter]. destruct (processed row) eqn:Hp.
    + destruct (process_row st row) as [[st' out'] | e] eqn:Hstep;
        [ | cbn; discriminate].
      rewrite (process_row_no_previous st row st' out' Hz Hstep).
      cbn [tl]. apply loop_emitted.
    + apply processed_false in Hp.
      rewrite process_row_skip by exact Hp. apply IH. exact Hz.
Qed.

End Runs.

Section RunsMore.

(** What [derive] has computed when there is a stored position. *)
Lemma derive_inv (st : State) (row : Row) (delta d b s w : R) :
  lastlat st < 90 -> derive st row delta = Ok (d, b, s, w) ->
  haversine (Lat_PosX row) (Long_PosY row) (lastlat st) (lastlon st) = Ok d
  /\ Py.div (d * 1000) delta = Ok s
  /\ calculate_dew_point (Baro row) (AirT row) (RH row) = Ok w.
Proof.
  intros Hl. unfold derive.
  destruct (Rlt_dec (lastlat st) 90) as [_ | Hn]; [ | contradiction].
  destruct (haversine _ _ _ _) as [d' | ]; cbn [bind]; [ | discriminate].
  destruct (Py.div (d' * 1000) delta) as [s' | ] eqn:Hdiv; cbn [bind];
    [ | discriminate].
  destruct (calculate_dew_point _ _ _) as [w' | ]; cbn [bind];
    [ | discriminate].
  intros H. injection H as -> _ -> ->. auto.
Qed.

(** Rows that are all passed over end the loop where it stands. *)
Lemma loop_all_skipped (rows : list Row) (st : State) ws fs :
  filter processed rows = [] ->
  loop st rows ws fs = mkOutcome ws (Some fs) None.
Proof.
  intros H. rewrite <- loop_filter, H. reflexivity.
Qed.

(** With at most one processed row nothing is emitted and nothing
    raises. *)
Lemma loop_single (rows : list Row) :
  forall ws fs,
    (List.length (filter processed rows) <= 1)%nat ->
    loop init_state rows ws fs = mkOutcome ws (Some fs) None.
Proof.
  intros ws fs Hlen. rewrite <- loop_filter.
  destruct (filter processed rows) as [ | row [ | row' rest]] eqn:Hf.
  - reflexivity.
  - assert (Hp : processed row = true).
    { assert (Hin : In row (filter processed rows))
        by (rewrite Hf; left; reflexivity).
      apply filter_In in Hin. apply Hin. }
    apply processed_true in Hp.
    cbn [loop]. rewrite first_row_step by exact Hp. reflexivity.
  - cbn in Hlen. lia.
Qed.

(** Rows that each differ in time from their predecessor are all
    emitted. *)
Lemma loop_regular (rows : list Row) :
  forall st ws fs,
    regular_after (lasttime st) rows ->
    exists feats,
      loop st rows ws fs
      = mkOutcome (ws ++ map line_of feats)%list (Some (fs ++ feats)%list) None
      /\ Forall2 built_from feats rows.
Proof.
  induction rows as [ | row rest IH]; intros st ws fs Hreg.
  - exists []. cbn. rewrite !app_nil_r. split; [reflexivity | constructor].
  - destruct Hreg as (Hz & Ht & Hlat & HT & Hrh & Hrest).
    assert (Hd : row_delta st row <> 0).
    { rewrite row_delta_previous by exact Hz. lra. }
    destruct (process_row_emits st row Hlat Hd HT Hrh)
      as (d & b & s & w & Hstep).
    cbn [loop]. rewrite Hstep.
    match goal with
    | |- context [loop ?st' rest (ws ++ [?l]) (fs ++ [?f])] =>
        destruct (IH st' (ws ++ [l])%list (fs ++ [f])%list Hrest)
          as (feats & Hrun & Hall);
        exists (f :: feats)
    end.
    rewrite Hrun. cbn [map]. rewrite <- !app_assoc. cbn [app].
    split; [reflexivity | ].
    constructor; [ | exact Hall].
    unfold built_from, position. cbn. auto.
Qed.

End RunsMore.

Section RunsAtStart.

(** A log whose first processed row is followed only by rows that differ
    in time from their predecessor. *)
Lemma run_regular (df : list Row) (r1 : Row) (rest : list Row) :
  filter processed df = r1 :: rest ->
  regular_after (Time r1) rest ->
  exists feats,
    dataframe_to_geojson df
    = mkOutcome (Header :: map line_of feats) (Some feats) None
    /\ Forall2 built_from feats rest.
Proof.
  intros Hf Hreg. unfold dataframe_to_geojson.
  rewrite <- loop_filter, Hf. cbn [loop].
  assert (Hp : Lat_PosX r1 <= 90).
  { apply processed_true.
    assert (Hin : In r1 (filter processed df))
      by (rewrite Hf; left; reflexivity).
    apply filter_In in Hin. apply Hin. }
  rewrite first_row_step by exact Hp.
  apply (loop_regular rest (mkState _ _ _ 0 0 0 0)). exact Hreg.
Qed.

(** A log whose first processed row has timestamp 0 and lies below 90
    degrees stops at the second processed row. *)
Lemma run_zero_start (df : list Row) (r1 r2 : Row) (rest : list Row) :
  filter processed df = r1 :: r2 :: rest ->
  Time r1 = 0 -> Lat_PosX r1 < 90 ->
  dataframe_to_geojson df = mkOutcome [Header] None (Some ZeroDivisionError).
Proof.
  intros Hf Ht Hlat. unfold dataframe_to_geojson.
  rewrite <- loop_filter, Hf. cbn [loop].
  assert (Hp : Lat_PosX r2 <= 90).
  { apply processed_true.
    assert (Hin : In r2 (filter processed df))
      by (rewrite Hf; right; left; reflexivity).
    apply filter_In in Hin. apply Hin. }
  rewrite first_row_step by lra.
  rewrite process_row_zero_delta; [reflexivity | exact Hp | cbn; lra | ].
  apply row_delta_no_previous. exact Ht.
Qed.

Lemma filter_sample_regular :
  filter processed [Sample.row_t1; Sample.footer_row; Sample.row_t5;
                    Sample.row_t9]
  = [Sample.row_t1; Sample.row_t5; Sample.row_t9].
Proof.
  cbn [filter].
  rewrite (proj2 (processed_true Sample.row_t1)) by (cbn; lra).
  rewrite (proj2 (processed_false Sample.footer_row)) by (cbn; lra).
  rewrite (proj2 (processed_true Sample.row_t5)) by (cbn; lra).
  rewrite (proj2 (processed_true Sample.row_t9)) by (cbn; lra).
  reflexivity.
Qed.

Lemma sample_regular :
  regular_after (Time Sample.row_t1) [Sample.row_t5; Sample.row_t9].
Proof.
  cbn. repeat split; lra.
Qed.

Lemma filter_sample_zero :
  filter processed [Sample.start_row; Sample.second_row]
  = [Sample.start_row; Sample.second_row].
Proof.
  cbn [filter].
  rewrite (proj2 (processed_true Sample.start_row)) by (cbn; lra).
  rewrite (proj2 (processed_true Sample.second_row)) by (cbn; lra).
  reflexivity.
Qed.

Lemma string_app_inv_head (s t u : string) :
  (s ++ t)%string = (s ++ u)%string -> t = u.
Proof.
  induction s as [ | c s IH]; cbn; [auto | ].
  intros H. injection H as H. auto.
Qed.

End RunsAtStart.

(** ** Whole runs: what is written *)

(** X7.  Whatever the input, the tabular output starts with the header
    and every further line carries the altitude, pressure, temperature,
    dew point, bearing and speed of one feature.  When the run completes,
    the collection holds exactly the features of these lines, in the same
    order; when it raises, no collection is written. *)
Theorem lines_match_features (df : list Row) :
  exists feats,
    ws_written (dataframe_to_geojson df) = Header :: map line_of feats
    /\ ((gj_written (dataframe_to_geojson df) = Some feats
         /\ raised (dataframe_to_geojson df) = None)
        \/ (gj_written (dataframe_to_geojson df) = None
            /\ exists e, raised (dataframe_to_geojson df) = Some e)).
Proof.
  unfold dataframe_to_geojson.
  destruct (loop_shape df init_state [Header] []) as (feats & Hws & H).
  exists feats. split; [exact Hws | exact H].
Qed.

(** X8.  Rows with a latitude above 90 have no effect at all: removing
    them from the input leaves the lines, the collection and the exception
    unchanged. *)
Theorem skipped_rows_are_inert (df : list Row) :
  dataframe_to_geojson (filter processed df) = dataframe_to_geojson df.
Proof.
  apply loop_filter.
Qed.

(** X9.  In a run that completes, the features are built, in input order,
    from processed rows other than the first processed one: each feature
    copies position, pressure, humidity and temperature from its row and
    has a nonzero [dT].  There are therefore fewer features than processed
    rows. *)
Theorem features_come_from_rows (df : list Row) (fs : list Feature) :
  gj_written (dataframe_to_geojson df) = Some fs ->
  exists sub,
    Forall2 (fun f row => built_from f row /\ p_dT f <> 0) fs sub
    /\ Subseq sub (tl (filter processed df))
    /\ (List.length fs <= pred (List.length (filter processed df)))%nat.
Proof.
  intros Hrun.
  destruct (loop_emitted_first df init_state [Header] [] fs eq_refl Hrun)
    as (feats & sub & -> & Hall & Hsub).
  exists sub. cbn [app]. repeat split; [exact Hall | exact Hsub | ].
  rewrite (Forall2_length Hall).
  apply Subseq_length in Hsub.
  destruct (filter processed df); cbn in *; lia.
Qed.

Lemma features_come_from_rows_witness :
  exists fs sub,
    gj_written
      (dataframe_to_geojson
         [Sample.row_t1; Sample.footer_row; Sample.row_t5; Sample.row_t9])
    = Some fs
    /\ Forall2 (fun f row => built_from f row /\ p_dT f <> 0) fs sub
    /\ (List.length fs <= 2)%nat.
Proof.
  destruct (run_regular _ _ _ filter_sample_regular sample_regular)
    as (feats & Hrun & _).
  assert (Hgj : gj_written
                  (dataframe_to_geojson
                     [Sample.row_t1; Sample.footer_row; Sample.row_t5;
                      Sample.row_t9]) = Some feats)
    by (rewrite Hrun; reflexivity).
  destruct (features_come_from_rows _ feats Hgj) as (sub & Hall & _ & Hlen).
  rewrite filter_sample_regular in Hlen.
  exists feats, sub. auto.
Defined.

(** X10.  The tabular output only grows: the lines written for an input
    are the beginning of the lines written for any longer input that
    starts with it. *)
Theorem lines_only_grow (rows1 rows2 : list Row) :
  exists more,
    ws_written (dataframe_to_geojson (rows1 ++ rows2))
    = (ws_written (dataframe_to_geojson rows1) ++ more)%list.
Proof.
  unfold dataframe_to_geojson.
  apply (loop_app rows1 rows2 init_state [Header] []).
Qed.

(** X11.  An exception ends the run: rows after the one that raises are
    never looked at, so any continuation of the input gives the same
    lines, no collection and the same exception. *)
Theorem exception_ends_run (rows1 rows2 : list Row) (e : exn) :
  raised (dataframe_to_geojson rows1) = Some e ->
  dataframe_to_geojson (rows1 ++ rows2) = dataframe_to_geojson rows1.
Proof.
  unfold dataframe_to_geojson.
  apply (loop_app rows1 rows2 init_state [Header] []).
Qed.

Lemma exception_ends_run_witness :
  dataframe_to_geojson
    ([Sample.start_row; Sample.second_row] ++ [Sample.row_t9])
  = dataframe_to_geojson [Sample.start_row; Sample.second_row].
Proof.
  apply (exception_ends_run _ _ ZeroDivisionError).
  rewrite (run_zero_start _ _ _ _ filter_sample_zero);
    [reflexivity | reflexivity | cbn; lra].
Defined.



(** X13.  A log whose first processed row has timestamp 0 and a latitude
    below 90 never converts once a second processed row follows: the run
    raises [ZeroDivisionError] there, with only the header written. *)
Theorem zero_start_never_converts
        (df : list Row) (r1 r2 : Row) (rest : list Row) :
  filter processed df = r1 :: r2 :: rest ->
  Time r1 = 0 -> Lat_PosX r1 < 90 ->
  dataframe_to_geojson df = mkOutcome [Header] None (Some ZeroDivisionError).
Proof.
  apply run_zero_start.
Qed.

Lemma zero_start_never_converts_witness :
  dataframe_to_geojson [Sample.start_row; Sample.second_row]
  = mkOutcome [Header] None (Some ZeroDivisionError).
Proof.
  apply (zero_start_never_converts _ Sample.start_row Sample.second_row []).
  - exact filter_sample_zero.
  - reflexivity.
  - cbn. lra.
Defined.

(** X14.  An input with at most one processed row (the empty input
    included) converts without an exception to the header alone and an
    empty collection. *)
Theorem short_log_is_empty (df : list Row) :
  (List.length (filter processed df) <= 1)%nat ->
  dataframe_to_geojson df = mkOutcome [Header] (Some []) None.
Proof.
  apply loop_single.
Qed.

Lemma short_log_is_empty_witness :
  dataframe_to_geojson [Sample.footer_row; Sample.row_t1]
  = mkOutcome [Header] (Some []) None.
Proof.
  apply short_log_is_empty.
  cbn [filter].
  rewrite (proj2 (processed_false Sample.footer_row)) by (cbn; lra).
  rewrite (proj2 (processed_true Sample.row_t1)) by (cbn; lra).
  cbn. lia.
Defined.

(** ** One row after another: what the emitted values are *)

(** X15.  The test [lastlat < 90] is strict while rows at exactly 90
    degrees are processed: the row after such a row recomputes nothing.
    It never raises, whatever its timestamp and humidity, and when it is
    emitted its distance, bearing, speed and dew point are the values
    carried from earlier rows. *)
Theorem stale_values_after_latitude_90
        (st : State) (prev cur : Row) st1 o1 :
  Lat_PosX prev = 90 ->
  process_row st prev = Ok (st1, o1) ->
  Lat_PosX cur <= 90 ->
  exists out,
    process_row st1 cur
    = Ok (mkState (Time cur) (Lat_PosX cur) (Long_PosY cur)
                  (distance st1) (bearing st1) (speed st1) (dew_point st1),
          out)
    /\ forall f l, out = Some (f, l) ->
         p_distance f = distance st1 /\ p_bearing f = bearing st1
         /\ p_speed f = speed st1 /\ p_dew_point f = dew_point st1.
Proof.
  intros Hprev Hstep Hcur.
  destruct (process_row_state st prev st1 o1 ltac:(lra) Hstep)
    as (_ & Hlat & _).
  rewrite process_row_no_position by (try exact Hcur; lra).
  eexists. split; [reflexivity | ].
  intros f l. destruct (Py.truthy (row_delta st1 cur)); [ | discriminate].
  intros [= <- _]. cbn. auto.
Qed.

Lemma stale_values_after_latitude_90_witness :
  exists out,
    process_row (mkState 1 90 20 0 0 0 0) Sample.dry_2
    = Ok (mkState 2 10.001 20.001 0 0 0 0, out)
    /\ forall f l, out = Some (f, l) ->
         p_distance f = 0 /\ p_bearing f = 0
         /\ p_speed f = 0 /\ p_dew_point f = 0.
Proof.
  apply (stale_values_after_latitude_90
           init_state Sample.pole_row Sample.dry_2
           (mkState 1 90 20 0 0 0 0) None).
  - reflexivity.
  - apply (first_row_step Sample.pole_row). cbn. lra.
  - cbn. lra.
Defined.

(** X16.  For every emitted row whose previous processed row lies below
    90 degrees: the previous timestamp is not 0, [dT] is the difference of
    the two timestamps and is not 0, the distance is [haversine] of the
    two positions, the speed is [distance * 1000 / dT], and the dew point
    is [calculate_dew_point] of the row's own pressure, temperature and
    humidity. *)
Theorem emitted_sample_fields
        (st : State) (prev cur : Row) st1 o1 st2 f l :
  Lat_PosX prev < 90 ->
  process_row st prev = Ok (st1, o1) ->
  process_row st1 cur = Ok (st2, Some (f, l)) ->
  Time prev <> 0
  /\ p_dT f = Time cur - Time prev /\ p_dT f <> 0
  /\ haversine (Lat_PosX cur) (Long_PosY cur) (Lat_PosX prev) (Long_PosY prev)
     = Ok (p_distance f)
  /\ p_speed f = p_distance f * 1000 / p_dT f
  /\ calculate_dew_point (Baro cur) (AirT cur) (RH cur) = Ok (p_dew_point f).
Proof.
  intros Hprev Hstep1 Hstep2.
  destruct (process_row_state st prev st1 o1 ltac:(lra) Hstep1)
    as (Htime & Hlat & Hlon).
  destruct (process_row_emitted st1 cur st2 f l Hstep2)
    as (_ & Hd & _ & _ & HdT & Hder & _).
  assert (Hz : lasttime st1 <> 0).
  { intros Hz. apply Hd. apply row_delta_no_previous. exact Hz. }
  assert (Hdelta : row_delta st1 cur = Time cur - Time prev).
  { rewrite row_delta_previous by exact Hz. congruence. }
  apply derive_inv in Hder; [ | lra].
  destruct Hder as (Hhav & Hdiv & Hdew).
  rewrite div_nonzero in Hdiv by exact Hd. injection Hdiv as Hdiv.
  rewrite Hlat, Hlon in Hhav.
  repeat split; try congruence.
Qed.

Lemma emitted_sample_fields_witness :
  exists st2 f l,
    process_row (mkState 1 0 0 0 0 0 0) Sample.equator_east
    = Ok (st2, Some (f, l))
    /\ p_dT f = 2 - 1
    /\ p_speed f = p_distance f * 1000 / p_dT f.
Proof.
  assert (Hd : row_delta (mkState 1 0 0 0 0 0 0) Sample.equator_east <> 0).
  { rewrite row_delta_previous by (cbn; lra). cbn. lra. }
  destruct (process_row_emits (mkState 1 0 0 0 0 0 0) Sample.equator_east)
    as (d & b & s & w & Hstep);
    [cbn; lra | exact Hd | cbn; lra | cbn; lra | ].
  destruct (emitted_sample_fields
              init_state Sample.equator_west Sample.equator_east
              (mkState 1 0 0 0 0 0 0) None _ _ _
              ltac:(cbn; lra)
              (first_row_step Sample.equator_west ltac:(cbn; lra))
              Hstep)
    as (_ & HdT & _ & _ & Hspeed & _).
  eexists _, _, _. split; [exact Hstep | ]. split; [exact HdT | exact Hspeed].
Defined.

(** ** Output file names *)

(** X17.  Whatever [os.path.splitext] returns for the input name, two
    different extensions give two different output names: the tabular
    file and the collection never overwrite each other. *)
Theorem output_names_differ
        (splitext : string -> string * string) (filename e1 e2 : string) :
  e1 <> e2 ->
  replace_extension splitext filename e1
  <> replace_extension splitext filename e2.
Proof.
  intros Hne. unfold replace_extension.
  destruct (splitext filename) as [name ext].
  intros H. apply string_app_inv_head in H.
  apply (string_app_inv_head ".") in H. contradiction.
Qed.

Lemma output_names_differ_witness :
  replace_extension (fun _ => ("flight", ".csv")%string)
                    "flight.csv" "windsond"
  <> replace_extension (fun _ => ("flight", ".csv")%string)
                       "flight.csv" "geojson".
Proof.
  apply output_names_differ. discriminate.
Defined.

(** ** One row after another: timestamps *)

(** X18.  Two processed rows in a row with the same timestamp, the first
    of them below 90 degrees: the second one raises [ZeroDivisionError],
    whatever state the first one started from. *)
Theorem repeated_timestamp_raises
        (st : State) (prev cur : Row) st1 o1 :
  Lat_PosX prev < 90 -> Lat_PosX cur <= 90 ->
  Time cur = Time prev ->
  process_row st prev = Ok (st1, o1) ->
  process_row st1 cur = Err ZeroDivisionError.
Proof.
  intros Hp Hc Ht Hstep.
  destruct (process_row_state st prev st1 o1 ltac:(lra) Hstep)
    as (Htime & Hlat & _).
  apply process_row_raises; [exact Hc | ].
  assert (Hd : row_delta st1 cur = 0).
  { unfold row_delta. destruct (Py.truthy (lasttime st1)); lra. }
  rewrite Hd. apply derive_zero_delta. lra.
Qed.

Lemma repeated_timestamp_raises_witness :
  process_row (mkState 5 10.001 20.001 0 0 0 0) Sample.row_t5_again
  = Err ZeroDivisionError.
Proof.
  apply (repeated_timestamp_raises
           init_state Sample.row_t5 Sample.row_t5_again
           (mkState 5 10.001 20.001 0 0 0 0) None).
  - cbn. lra.
  - cbn. lra.
  - reflexivity.
  - apply (first_row_step Sample.row_t5). cbn. lra.
Defined.

(** X19.  Timestamps are not required to increase.  For an emitted row
    whose previous processed row lies below 90 degrees, the speed is not
    negative when the row is later than its predecessor and not positive
    when it is earlier. *)
Theorem speed_sign_follows_time
        (st : State) (prev cur : Row) st1 o1 st2 f l :
  Lat_PosX prev < 90 ->
  process_row st prev = Ok (st1, o1) ->
  process_row st1 cur = Ok (st2, Some (f, l)) ->
  (Time prev < Time cur -> 0 <= p_speed f)
  /\ (Time cur < Time prev -> p_speed f <= 0).
Proof.
  intros Hprev Hstep1 Hstep2.
  destruct (process_row_state st prev st1 o1 ltac:(lra) Hstep1)
    as (Htime & Hlat & Hlon).
  destruct (process_row_emitted st1 cur st2 f l Hstep2)
    as (_ & Hd & _ & _ & _ & Hder & _).
  assert (Hz : lasttime st1 <> 0).
  { intros Hz. apply Hd. apply row_delta_no_previous. exact Hz. }
  rewrite row_delta_previous in Hder, Hd by exact Hz.
  apply derive_inv in Hder; [ | lra].
  destruct Hder as (Hhav & Hdiv & _).
  rewrite haversine_total in Hhav. injection Hhav as Hhav.
  rewrite div_nonzero in Hdiv by exact Hd. injection Hdiv as Hdiv.
  pose proof (great_circle_range (Lat_PosX cur) (Long_PosY cur)
                                 (lastlat st1) (lastlon st1)) as [Hge _].
  rewrite Hhav in Hge. rewrite Htime in Hdiv.
  rewrite <- Hdiv. unfold Rdiv.
  split; intros Hlt.
  - apply Rmult_le_pos; [lra | ].
    left. apply Rinv_0_lt_compat. lra.
  - assert (Hinv : / (Time cur - Time prev) < 0)
      by (apply Rinv_lt_0_compat; lra).
    nra.
Qed.

Lemma speed_sign_follows_time_witness :
  exists st2 f l,
    process_row (mkState 1 0 0 0 0 0 0) Sample.equator_east
    = Ok (st2, Some (f, l))
    /\ 0 <= p_speed f.
Proof.
  assert (Hd : row_delta (mkState 1 0 0 0 0 0 0) Sample.equator_east <> 0).
  { rewrite row_delta_previous by (cbn; lra). cbn. lra. }
  destruct (process_row_emits (mkState 1 0 0 0 0 0 0) Sample.equator_east)
    as (d & b & s & w & Hstep);
    [cbn; lra | exact Hd | cbn; lra | cbn; lra | ].
  destruct (speed_sign_follows_time
              init_state Sample.equator_west Sample.equator_east
              (mkState 1 0 0 0 0 0 0) None _ _ _
              ltac:(cbn; lra)
              (first_row_step Sample.equator_west ltac:(cbn; lra))
              Hstep)
    as (Hpos & _).
  eexists _, _, _. split; [exact Hstep | ].
  apply Hpos. cbn. lra.
Defined.
